(** * The spherical-shell scripts: model builder and result plotter

    A shallow embedding of [SphericalShell/build_shell_model.py] and
    [SphericalShell/plot_shell_results.py].

    Both scripts are glue over three libraries: [argparse], [numpy]
    and the transport engine's Python API ([openmc]), plus
    [matplotlib] for the chart.  The scripts are embedded statement by
    statement in a small error-and-log monad; the libraries are
    embedded as far as the scripts drive them:

    - Python values are dynamically typed ([Py.value]); attribute
      lookups, subscripts and binary operators that the interpreter
      or a library rejects return the exception Python raises;
    - Python floats are read as real numbers ([R]): every numeric
      statement below is one of exact arithmetic;
    - an engine object is the record of what its constructor and
      setters were given.  Identifiers that the engine hands out and
      the validation of numeric ranges inside the engine are not
      modelled; the rejection of a value of the wrong dynamic type
      is. *)

From Stdlib Require Import String List ZArith Reals Lra Lia Bool.
#[local] Set Warnings "-register-all".
Import ListNotations.
Local Open Scope string_scope.
Local Open Scope list_scope.

(** ** The chart a figure holds

    What [matplotlib] is told about the one set of axes of a figure:
    the data of the plotted line, its draw style, the scale of each
    axis, the axis labels and the grid. *)

Module Chart.

Record Figure : Type := {
  xdata : list R;
  ydata : list R;
  drawstyle : string;
  xscale : string;
  yscale : string;
  xlabel : string;
  ylabel : string;
  grid : option string
}.

(** [plt.subplots()]: empty linear axes. *)
Definition empty : Figure :=
  {| xdata := []; ydata := []; drawstyle := "default";
     xscale := "linear"; yscale := "linear";
     xlabel := ""; ylabel := ""; grid := None |}.

End Chart.

(** ** Python: values, exceptions, and the effects of a script *)

Module Py.

Inductive exn : Type :=
| AttributeError (msg : string)
| TypeError (msg : string)
| ValueError (msg : string)
| IndexError (msg : string)
| LookupError (msg : string)
| FileNotFoundError (path : string)
| OSError (msg : string)
| SystemExit (code : Z).

Definition result (A : Type) : Type := (exn + A)%type.

Inductive value : Type :=
| VStr (s : string)
| VInt (z : Z)
| VFloat (x : R).

(** [a + b] on the values a namespace can hold. *)
Definition add (a b : value) : result value :=
  match a, b with
  | VInt x, VInt y => inr (VInt (x + y))
  | VInt x, VFloat y => inr (VFloat (IZR x + y))
  | VFloat x, VInt y => inr (VFloat (x + IZR y))
  | VFloat x, VFloat y => inr (VFloat (x + y))
  | VStr x, VStr y => inr (VStr (String.append x y))
  | _, _ => inl (TypeError "unsupported operand type(s) for +")
  end.

(** A mapping with string keys, in insertion order, and its lookup. *)
Fixpoint lookup {A : Type} (name : string) (d : list (string * A)) : option A :=
  match d with
  | [] => None
  | (k, v) :: d' => if String.eqb k name then Some v else lookup name d'
  end.

(** [seq[i]] on a Python list. *)
Definition getitem {A : Type} (l : list A) (i : nat) : result A :=
  match nth_error l i with
  | Some x => inr x
  | None => inl (IndexError "list index out of range")
  end.

(** Classes whose constructors the scripts can reach. *)
Inductive class : Type :=
| CMaterial | CMaterials
| CSphere | CCell | CGeometry
| CPoint | CDiscrete | CSource
| CSettings
| CCellFilter | CEnergyFilter | CTally | CTallies
| CStatePoint
| CFigure.

Definition class_eqb (a b : class) : bool :=
  match a, b with
  | CMaterial, CMaterial | CMaterials, CMaterials
  | CSphere, CSphere | CCell, CCell | CGeometry, CGeometry
  | CPoint, CPoint | CDiscrete, CDiscrete | CSource, CSource
  | CSettings, CSettings
  | CCellFilter, CCellFilter | CEnergyFilter, CEnergyFilter
  | CTally, CTally | CTallies, CTallies
  | CStatePoint, CStatePoint
  | CFigure, CFigure => true
  | _, _ => false
  end.

(** What a run of a script does besides computing values.  [New c]:
    a constructor of class [c] returned an object.  [ExportToXml]
    and [Run] are the two ways the engine's API takes a model over:
    writing its input files, and starting it.  [OpenRead] and
    [SaveFig] are the file accesses of the scripts' own statements:
    a file opened for reading, and a figure written to an image
    file. *)
Inductive event : Type :=
| New (c : class)
| ExportToXml
| Run
| OpenRead (path : string)
| SaveFig (path : string) (fig : Chart.Figure)
| Show.

(** A computation: the events so far, then an exception or a value. *)
Definition M (A : Type) : Type := (list event * result A)%type.

Definition ret {A : Type} (x : A) : M A := ([], inr x).
Definition raise {A : Type} (e : exn) : M A := ([], inl e).
Definition lift {A : Type} (r : result A) : M A := ([], r).
Definition emit (e : event) : M unit := ([e], inr tt).

Definition bind {A B : Type} (m : M A) (k : A -> M B) : M B :=
  match m with
  | (t, inl e) => (t, inl e)
  | (t, inr a) => let (t', r) := k a in (t ++ t', r)
  end.

Definition trace {A : Type} (m : M A) : list event := fst m.
Definition outcome {A : Type} (m : M A) : result A := snd m.

Definition raises {A : Type} (m : M A) : bool :=
  match outcome m with inl _ => true | inr _ => false end.

(** Projections of a trace. *)
Definition constructed (t : list event) : list class :=
  flat_map (fun e => match e with New c => [c] | _ => [] end) t.

Definition handoffs (t : list event) : list event :=
  filter (fun e => match e with ExportToXml | Run => true | _ => false end) t.

Definition reads (t : list event) : list string :=
  flat_map (fun e => match e with OpenRead p => [p] | _ => [] end) t.

Definition writes (t : list event) : list string :=
  flat_map (fun e => match e with SaveFig p _ => [p] | _ => [] end) t.

End Py.

Notation "x <- m ;; k" := (Py.bind m (fun x => k))
  (at level 61, m at next level, right associativity).
Notation "m ;;; k" := (Py.bind m (fun _ => k))
  (at level 61, right associativity).

(** ** argparse

    The module's public names.  [PARSER] is the only one that differs
    from [Parser] by case alone; attribute lookup is case sensitive. *)

Module Argparse.

Inductive attr : Type :=
| ArgumentParserClass
| OtherClass (name : string)
| Constant (v : Py.value)
| Function (name : string).

Definition module_dict : list (string * attr) :=
  [ ("Action", OtherClass "Action");
    ("ArgumentDefaultsHelpFormatter", OtherClass "ArgumentDefaultsHelpFormatter");
    ("ArgumentError", OtherClass "ArgumentError");
    ("ArgumentParser", ArgumentParserClass);
    ("ArgumentTypeError", OtherClass "ArgumentTypeError");
    ("BooleanOptionalAction", OtherClass "BooleanOptionalAction");
    ("FileType", OtherClass "FileType");
    ("HelpFormatter", OtherClass "HelpFormatter");
    ("MetavarTypeHelpFormatter", OtherClass "MetavarTypeHelpFormatter");
    ("Namespace", OtherClass "Namespace");
    ("ONE_OR_MORE", Constant (Py.VStr "+"));
    ("OPTIONAL", Constant (Py.VStr "?"));
    ("PARSER", Constant (Py.VStr "A..."));
    ("REMAINDER", Constant (Py.VStr "..."));
    ("RawDescriptionHelpFormatter", OtherClass "RawDescriptionHelpFormatter");
    ("RawTextHelpFormatter", OtherClass "RawTextHelpFormatter");
    ("SUPPRESS", Constant (Py.VStr "==SUPPRESS=="));
    ("ZERO_OR_MORE", Constant (Py.VStr "*"));
    ("ngettext", Function "ngettext") ].

(** [argparse.<name>] *)
Definition getattr (name : string) : Py.result attr :=
  match Py.lookup name module_dict with
  | Some a => inr a
  | None => inl (Py.AttributeError
                   ("module 'argparse' has no attribute '" ++ name ++ "'"))
  end.

(** One [add_argument] call: its option strings and its default. *)
Record Argument : Type := {
  option_strings : list string;
  default : Py.value
}.

Definition ArgumentParser : Type := list Argument.

(** What [parse_args] returns: attribute names and their values. *)
Definition Namespace : Type := list (string * Py.value).

(** [cls()] for an attribute of the module used as a parser class.
    Only [ArgumentParser] gives an object with [add_argument]. *)
Definition construct (a : attr) : Py.result ArgumentParser :=
  match a with
  | ArgumentParserClass => inr []
  | OtherClass name =>
      inl (Py.AttributeError ("'" ++ name ++ "' object has no attribute 'add_argument'"))
  | Constant _ => inl (Py.TypeError "'str' object is not callable")
  | Function _ => inl (Py.TypeError "missing required positional arguments")
  end.

(** [parser.add_argument(flags..., default=d)] *)
Definition add_argument (p : ArgumentParser) (flags : list string) (d : Py.value)
  : ArgumentParser :=
  p ++ [{| option_strings := flags; default := d |}].

(** [ns.<name>] *)
Definition ns_getattr (ns : Namespace) (name : string) : Py.result Py.value :=
  match Py.lookup name ns with
  | Some v => inr v
  | None => inl (Py.AttributeError
                   ("'Namespace' object has no attribute '" ++ name ++ "'"))
  end.

End Argparse.

(** ** numpy *)

Module Numpy.

Local Open Scope R_scope.

(** [np.linspace(start, stop, num)] with the end point included:
    [num] evenly spaced samples, the last one set to [stop]. *)
Definition linspace (start stop : R) (num : nat) : list R :=
  match num with
  | O => []
  | S O => [start]
  | S div =>
      let step := (stop - start) / INR div in
      map (fun i => INR i * step + start) (seq 0 div) ++ [stop]
  end.

(** [np.logspace(start, stop, num)]: base ten raised to each sample
    of [linspace(start, stop, num)].  The arguments are exponents. *)
Definition logspace (start stop : R) (num : nat) : list R :=
  map (fun y => Rpower 10 y) (linspace start stop num).

(** [a.ravel()] on an array of three axes, in row-major order. *)
Definition ravel3 (a : list (list (list R))) : list R :=
  concat (concat a).

End Numpy.

(** ** The engine's object model *)

Module Openmc.

Import Py.

(** A number, as the engine's type checks accept one. *)
Definition as_real (what : string) (v : value) : result R :=
  match v with
  | VFloat x => inr x
  | VInt z => inr (IZR z)
  | VStr _ => inl (TypeError ("Unable to set " ++ what ++ ": not a Real"))
  end.

Definition as_str (what : string) (v : value) : result string :=
  match v with
  | VStr s => inr s
  | _ => inl (TypeError ("Unable to set " ++ what ++ ": not a str"))
  end.

(** *** Materials *)

Record Material : Type := {
  mat_name : string;
  mat_elements : list (string * R * string);  (* element, percent, percent type *)
  mat_density : option (string * R)           (* units, value *)
}.

Definition Materials : Type := list Material.

(** [openmc.Material(name=n)] *)
Definition Material_new (n : string) : M Material :=
  emit (New CMaterial) ;;;
  ret {| mat_name := n; mat_elements := []; mat_density := None |}.

(** [m.add_element(element, percent)], atom percent by default.  Only
    the type check is modelled: that the string names an element, and
    the expansion of the element into its isotopes, are left to the
    engine. *)
Definition add_element (m : Material) (element : value) (percent : R) : M Material :=
  e <- lift (as_str "element" element) ;;
  ret {| mat_name := mat_name m;
         mat_elements := mat_elements m ++ [(e, percent, "ao")];
         mat_density := mat_density m |}.

(** [m.set_density(units, density)] *)
Definition set_density (m : Material) (units : string) (density : value) : M Material :=
  d <- lift (as_real "density" density) ;;
  ret {| mat_name := mat_name m;
         mat_elements := mat_elements m;
         mat_density := Some (units, d) |}.

(** [openmc.Materials(l)] *)
Definition Materials_new (l : list Material) : M Materials :=
  emit (New CMaterials) ;;; ret l.

(** *** Surfaces, regions, cells *)

Record Sphere : Type := {
  x0 : R; y0 : R; z0 : R;
  r : R;
  boundary_type : string
}.

(** [openmc.Sphere(r=radius, boundary_type=b)], centred at the
    origin; the boundary is ['transmission'] when not given. *)
Definition Sphere_new (radius : value) (b : string) : M Sphere :=
  rad <- lift (as_real "r coefficient" radius) ;;
  emit (New CSphere) ;;;
  ret {| x0 := 0; y0 := 0; z0 := 0; r := rad; boundary_type := b |}.

Inductive side : Type := Negative | Positive.

Inductive Region : Type :=
| Halfspace (s : Sphere) (sd : side)
| Intersection (nodes : list Region).

(** [-s] and [+s]: the only operators a surface defines. *)
Definition neg (s : Sphere) : Region := Halfspace s Negative.
Definition pos (s : Sphere) : Region := Halfspace s Positive.

(** An operand of [&]: a surface object or a region object. *)
Inductive operand : Type :=
| OSurface (s : Sphere)
| ORegion (rg : Region).

(** [a & b] with a region on the right.  A region defines [&]: a
    half-space starts a new intersection, an intersection is copied
    and extended.  A surface defines neither [&] nor its reflected
    form, and no region defines the reflected form, so with a
    surface on the left the interpreter finds no implementation. *)
Definition and_ (a : operand) (b : Region) : result Region :=
  match a, b with
  | ORegion (Halfspace s sd), _ => inr (Intersection [Halfspace s sd; b])
  | ORegion (Intersection ns), Intersection ms => inr (Intersection (ns ++ ms))
  | ORegion (Intersection ns), _ => inr (Intersection (ns ++ [b]))
  | OSurface _, _ =>
      inl (TypeError "unsupported operand type(s) for &: 'Sphere' and 'Halfspace'")
  end.

Record Cell : Type := {
  fill : option Material;
  region : option Region
}.

(** [openmc.Cell(fill=f, region=rg)] *)
Definition Cell_new (f : option Material) (rg : Region) : M Cell :=
  emit (New CCell) ;;;
  ret {| fill := f; region := Some rg |}.

(** A geometry built from cells: the cells of its root universe. *)
Record Geometry : Type := { root_cells : list Cell }.

(** [openmc.Geometry(cells)] *)
Definition Geometry_new (cells : list Cell) : M Geometry :=
  emit (New CGeometry) ;;;
  ret {| root_cells := cells |}.

(** [g[i]]: a geometry is not a sequence. *)
Definition Geometry_getitem (g : Geometry) (i : nat) : result Cell :=
  inl (TypeError "'Geometry' object is not subscriptable").

(** *** Source *)

Inductive Spatial : Type := Point (xyz : R * R * R).

Inductive UnitSphere : Type :=
| Isotropic
| Monodirectional (u : R * R * R).

Inductive Univariate : Type := Discrete (x : list R) (p : list R).

Record Source : Type := {
  space : option Spatial;
  angle : option UnitSphere;
  energy : option Univariate;
  strength : R;
  particle : string
}.

(** [openmc.stats.Point(xyz=p)] *)
Definition Point_new (p : R * R * R) : M Spatial :=
  emit (New CPoint) ;;; ret (Point p).

(** [openmc.stats.Discrete(x, p)] with two scalars: each becomes a
    list of one. *)
Definition Discrete_new (x p : R) : M Univariate :=
  emit (New CDiscrete) ;;; ret (Discrete [x] [p]).

(** [openmc.Source(space=s, energy=e, strength=w, particle=k)]: no
    angular distribution is set. *)
Definition Source_new (s : Spatial) (e : Univariate) (w : R) (k : string) : M Source :=
  emit (New CSource) ;;;
  ret {| space := Some s; angle := None; energy := Some e;
         strength := w; particle := k |}.

(** The direction distribution the engine samples from: isotropic
    when the source carries none. *)
Definition direction (s : Source) : UnitSphere :=
  match angle s with
  | Some a => a
  | None => Isotropic
  end.

(** *** Settings *)

Record Settings : Type := {
  batches : option Z;
  particles : option Z;
  run_mode : string
}.

(** [openmc.Settings()] *)
Definition Settings_new : M Settings :=
  emit (New CSettings) ;;;
  ret {| batches := None; particles := None; run_mode := "eigenvalue" |}.

Definition set_batches (s : Settings) (b : Z) : Settings :=
  {| batches := Some b; particles := particles s; run_mode := run_mode s |}.
Definition set_particles (s : Settings) (n : Z) : Settings :=
  {| batches := batches s; particles := Some n; run_mode := run_mode s |}.
Definition set_run_mode (s : Settings) (m : string) : Settings :=
  {| batches := batches s; particles := particles s; run_mode := m |}.

(** *** Filters and tallies *)

(** A cell filter is given cells or, once read back from a result
    file, the cells' identifiers. *)
Inductive cell_ref : Type :=
| CellObject (c : Cell)
| CellId (id : Z).

(** [EnergyFilter] and [MuFilter] are filters over real intervals,
    given by their edges; [CellFilter] is a filter over cells. *)
Inductive Filter : Type :=
| CellFilter (cells : list cell_ref)
| EnergyFilter (values : list R)
| MuFilter (values : list R).

Record Tally : Type := {
  tally_name : string;
  filters : list Filter;
  scores : list string;
  mean : option (list (list (list R)))  (* filter bins, nuclides, scores *)
}.

Definition Tallies : Type := list Tally.

(** [openmc.CellFilter(cells)] *)
Definition CellFilter_new (cells : list Cell) : M Filter :=
  emit (New CCellFilter) ;;; ret (CellFilter (map CellObject cells)).

(** [openmc.EnergyFilter(edges)] *)
Definition EnergyFilter_new (edges : list R) : M Filter :=
  emit (New CEnergyFilter) ;;; ret (EnergyFilter edges).

(** [openmc.Tally(name=n)] *)
Definition Tally_new (n : string) : M Tally :=
  emit (New CTally) ;;;
  ret {| tally_name := n; filters := []; scores := []; mean := None |}.

Definition set_scores (t : Tally) (s : list string) : Tally :=
  {| tally_name := tally_name t; filters := filters t; scores := s; mean := mean t |}.
Definition set_filters (t : Tally) (f : list Filter) : Tally :=
  {| tally_name := tally_name t; filters := f; scores := scores t; mean := mean t |}.

(** [openmc.Tallies(l)] *)
Definition Tallies_new (l : list Tally) : M Tallies :=
  emit (New CTallies) ;;; ret l.

(** *** Result files *)

Record StatePoint : Type := { tallies : list Tally }.

(** What a path of the working directory holds. *)
Inductive file : Type :=
| StatePointFile (sp : StatePoint)
| OtherFile.

Definition filesystem : Type := list (string * file).

(** [openmc.StatePoint(path)]: the file is opened for reading. *)
Definition StatePoint_open (fs : filesystem) (path : string) : M StatePoint :=
  emit (OpenRead path) ;;;
  match Py.lookup path fs with
  | None => raise (FileNotFoundError path)
  | Some OtherFile => raise (OSError "unable to open file as a statepoint")
  | Some (StatePointFile sp) => emit (New CStatePoint) ;;; ret sp
  end.

(** [sp.get_tally(name=n)]: the first tally of that name. *)
Definition get_tally (sp : StatePoint) (n : string) : result Tally :=
  match find (fun t => String.eqb (tally_name t) n) (tallies sp) with
  | Some t => inr t
  | None => inl (LookupError "Unable to get Tally")
  end.

(** [f.bins]: one row (low, high) per interval for a filter over
    real intervals, built from consecutive edges; a flat array of
    cells for a cell filter. *)
Inductive bins_array : Type :=
| Rows (rows : list (R * R))
| Flat (cells : list cell_ref).

Definition bins (f : Filter) : bins_array :=
  match f with
  | EnergyFilter vs | MuFilter vs => Rows (combine (removelast vs) (tl vs))
  | CellFilter cs => Flat cs
  end.

(** [b[:, 0]]: the first column, of an array with two axes. *)
Definition column0 (b : bins_array) : result (list R) :=
  match b with
  | Rows rows => inr (map fst rows)
  | Flat _ => inl (IndexError "too many indices for array")
  end.

(** [t.get_values(value='mean')] *)
Definition get_values_mean (t : Tally) : result (list (list (list R))) :=
  match mean t with
  | Some a => inr a
  | None => inl (ValueError "The Tally has no data to return")
  end.

End Openmc.

(** ** build_shell_model.py *)

Module BuildShellModel.

Import Py Openmc.
Local Open Scope R_scope.

(** [create_materials(element, density)] *)
Definition create_materials (element density : value) : M Materials :=
  W <- Material_new "W_Shell" ;;
  W <- add_element W element 1.0 ;;
  W <- set_density W "g/cm3" density ;;
  Materials_new [W].

(** [create_geometry(r_1, r_2, shell_mat)] *)
Definition create_geometry (r_1 r_2 : value) (shell_mat : Material) : M Geometry :=
  R_1 <- Sphere_new r_1 "transmission" ;;
  R_2 <- Sphere_new r_2 "vacuum" ;;
  Void <- Cell_new None (neg R_1) ;;
  shell_region <- lift (and_ (OSurface R_1) (neg R_2)) ;;
  Shell <- Cell_new (Some shell_mat) shell_region ;;
  Geometry_new [Void; Shell].

(** [create_isotropic_fusion_point_source()] *)
Definition create_isotropic_fusion_point_source : M Source :=
  PointSource <- Point_new (0.0, 0.0, 0.0) ;;
  Prob <- Discrete_new 14E+06 1.0 ;;
  Source_new PointSource Prob 1.0 "neutron".

(** [setup_problem(batches=10, particles_per_batch=100000)] *)
Definition setup_problem (batches particles_per_batch : option Z) : M Settings :=
  let batches := match batches with Some b => b | None => 10%Z end in
  let particles_per_batch :=
    match particles_per_batch with Some n => n | None => 100000%Z end in
  settings <- Settings_new ;;
  let settings := set_batches settings batches in
  let settings := set_particles settings particles_per_batch in
  let settings := set_run_mode settings "fixed source" in
  ret settings.

(** [create_tallies(cell)] *)
Definition create_tallies (cell : Cell) : M Tallies :=
  cell_filter <- CellFilter_new [cell] ;;
  let e_min := 5e2 in
  let e_max := 14.001e6 in
  let groups := 500%nat in
  let energies := Numpy.logspace e_min e_max (groups + 1)%nat in
  energy_filter <- EnergyFilter_new energies ;;
  neutron_tally <- Tally_new "Total neutron tally" ;;
  let neutron_tally := set_scores neutron_tally ["flux"; "elastic"; "absorption"] in
  let neutron_tally := set_filters neutron_tally [cell_filter] in
  spectrum_tally <- Tally_new "Flux spectrum" ;;
  let spectrum_tally := set_filters spectrum_tally [energy_filter; cell_filter] in
  let spectrum_tally := set_scores spectrum_tally ["flux"] in
  Tallies_new [neutron_tally; spectrum_tally].

Section CommandLine.

(** [parser.parse_args()]: how the parser maps the command line to
    a namespace, or exits.  The scripts never get that far, so
    the algorithm is left open. *)
Variable ArgumentParser_parse_args :
  Argparse.ArgumentParser -> list string -> result Argparse.Namespace.

(** [parse_args()], reading the command line [argv]. *)
Definition parse_args (argv : list string) : M Argparse.Namespace :=
  Parser <- lift (Argparse.getattr "Parser") ;;
  parser <- lift (Argparse.construct Parser) ;;
  let parser := Argparse.add_argument parser ["--element"; "-e"] (VStr "W") in
  let parser := Argparse.add_argument parser ["--density"; "-d"] (VFloat 19.28) in
  let parser := Argparse.add_argument parser ["--inner_radius"; "-r"] (VInt 1000) in
  let parser := Argparse.add_argument parser ["--shell_thickness"; "-t"] (VInt 5) in
  lift (ArgumentParser_parse_args parser argv).

(** The statements of [build_shell_model()] after the arguments
    are parsed. *)
Definition build_from_args (args : Argparse.Namespace) : M unit :=
  element <- lift (Argparse.ns_getattr args "element") ;;
  density <- lift (Argparse.ns_getattr args "density") ;;
  materials <- create_materials element density ;;
  r_1 <- lift (Argparse.ns_getattr args "inner_radius") ;;
  inner <- lift (Argparse.ns_getattr args "inner_radius") ;;
  thickness <- lift (Argparse.ns_getattr args "thickness") ;;
  r_2 <- lift (Py.add inner thickness) ;;
  shell_mat <- lift (getitem materials 0) ;;
  geometry <- create_geometry r_1 r_2 shell_mat ;;
  source <- create_isotropic_fusion_point_source ;;
  cell <- lift (Geometry_getitem geometry 1) ;;
  tallies <- create_tallies cell ;;
  settings <- setup_problem None None ;;
  ret tt.

(** [build_shell_model()], the script's entry point. *)
Definition build_shell_model (argv : list string) : M unit :=
  args <- parse_args argv ;;
  build_from_args args.

End CommandLine.

End BuildShellModel.

(** ** matplotlib.pyplot, as far as the plotter drives it *)

Module Pyplot.

Import Py Chart.

(** [plt.subplots()] *)
Definition subplots : M Figure :=
  emit (New CFigure) ;;; ret Chart.empty.

(** [ax.loglog(x, y, drawstyle=style)]: one line, both axes
    logarithmic.  The two arrays must have the same length. *)
Definition loglog (ax : Figure) (x y : list R) (style : string) : result Figure :=
  if Nat.eqb (length x) (length y) then
    inr {| xdata := x; ydata := y; drawstyle := style;
           xscale := "log"; yscale := "log";
           xlabel := xlabel ax; ylabel := ylabel ax; grid := grid ax |}
  else inl (ValueError "x and y must have same first dimension").

Definition set_xlabel (ax : Figure) (l : string) : Figure :=
  {| xdata := xdata ax; ydata := ydata ax; drawstyle := drawstyle ax;
     xscale := xscale ax; yscale := yscale ax;
     xlabel := l; ylabel := ylabel ax; grid := grid ax |}.

Definition set_ylabel (ax : Figure) (l : string) : Figure :=
  {| xdata := xdata ax; ydata := ydata ax; drawstyle := drawstyle ax;
     xscale := xscale ax; yscale := yscale ax;
     xlabel := xlabel ax; ylabel := l; grid := grid ax |}.

(** [ax.grid(True, which=w)] *)
Definition set_grid (ax : Figure) (w : string) : Figure :=
  {| xdata := xdata ax; ydata := ydata ax; drawstyle := drawstyle ax;
     xscale := xscale ax; yscale := yscale ax;
     xlabel := xlabel ax; ylabel := ylabel ax; grid := Some w |}.

(** [plt.savefig(path)] with [fig] the current figure. *)
Definition savefig (path : string) (fig : Figure) : M unit :=
  emit (SaveFig path fig).

(** [plt.show()] *)
Definition show : M unit := emit Show.

End Pyplot.

(** ** plot_shell_results.py *)

Module PlotShellResults.

Import Py Openmc.

(** [extract_flux_spectrum()], run in a working directory [fs]. *)
Definition extract_flux_spectrum (fs : filesystem) : M (list R * list R) :=
  sp <- StatePoint_open fs "statepoint.10.h5" ;;
  t <- lift (get_tally sp "Flux spectrum") ;;
  energy_filter <- lift (getitem (filters t) 0) ;;
  energies <- lift (column0 (bins energy_filter)) ;;
  values <- lift (get_values_mean t) ;;
  let flux := Numpy.ravel3 values in
  ret (energies, flux).

(** [generate_plot(energies, flux)]; the figure and its axes are one
    record here. *)
Definition generate_plot (energies flux : list R) : M Chart.Figure :=
  ax <- Pyplot.subplots ;;
  ax <- lift (Pyplot.loglog ax energies flux "steps-post") ;;
  let ax := Pyplot.set_xlabel ax "Energy [eV]" in
  let ax := Pyplot.set_ylabel ax "Flux [neutron-cm/source]" in
  let ax := Pyplot.set_grid ax "both" in
  ret ax.

(** [plot_shell_results()], the script's entry point. *)
Definition plot_shell_results (fs : filesystem) : M unit :=
  ef <- extract_flux_spectrum fs ;;
  let (energies, flux) := ef in
  fig <- generate_plot energies flux ;;
  Pyplot.savefig "neutron_flux_v_energy.png" fig ;;;
  Pyplot.show.

End PlotShellResults.

(** ** Properties the statements below are about *)

Module Props.

Import Py Openmc.



Fixpoint is_prefix (l1 l2 : list class) : bool :=
  match l1, l2 with
  | [], _ => true
  | a :: l1', b :: l2' => class_eqb a b && is_prefix l1' l2'
  | _ :: _, [] => false
  end.


(** The edges of the energy filter of a tally: of the first of its
    filters that is an [EnergyFilter]. *)
Definition energy_filter_values (t : Tally) : option (list R) :=
  match find (fun f => match f with EnergyFilter _ => true | _ => false end)
             (filters t) with
  | Some (EnergyFilter vs) => Some vs
  | _ => None
  end.

(** The edges of the energy filter of the tally named
    ["Flux spectrum"] in a collection of tallies. *)
Definition spectrum_edges (ts : Tallies) : list R :=
  match find (fun t => String.eqb (tally_name t) "Flux spectrum") ts with
  | Some t => match energy_filter_values t with Some vs => vs | None => [] end
  | None => []
  end.

(** The lower edge of each bin of a filter over real intervals with
    edges [vs]. *)
Definition lower_edges (vs : list R) : list R := removelast vs.

(** The result file holds a tally of that name. *)
Definition has_tally (n : string) (sp : StatePoint) : bool :=
  existsb (fun t => String.eqb (tally_name t) n) (tallies sp).

(** The plots a run saved. *)
Definition saved (t : list event) : list (string * Chart.Figure) :=
  flat_map (fun e => match e with SaveFig p f => [(p, f)] | _ => [] end) t.

(** A computation whose only events are constructor calls. *)
Definition only_constructs {A : Type} (m : M A) : Prop :=
  Forall (fun e => exists c, e = New c) (trace m).

(** A step plot on two logarithmic axes. *)
Definition is_loglog_step_plot (fig : Chart.Figure) : bool :=
  String.eqb (Chart.xscale fig) "log" &&
  String.eqb (Chart.yscale fig) "log" &&
  String.eqb (Chart.drawstyle fig) "steps-post".


(** In the working directory [fs], what the plotter extracts is the
    stored means of the spectrum tally, flattened, against the lower
    edges of the bins of that tally's energy filter. *)
Definition returns_energy_filter_edges (fs : filesystem) : Prop :=
  forall energies flux,
    outcome (PlotShellResults.extract_flux_spectrum fs) = inr (energies, flux) ->
    exists sp t vs values,
      Py.lookup "statepoint.10.h5" fs = Some (StatePointFile sp) /\
      get_tally sp "Flux spectrum" = inr t /\
      energy_filter_values t = Some vs /\
      energies = lower_edges vs /\
      mean t = Some values /\
      flux = Numpy.ravel3 values.

(** The dynamic types the engine accepts for an element symbol and
    for a number. *)
Definition is_str (v : value) : bool :=
  match v with VStr _ => true | _ => false end.

Definition is_number (v : value) : bool :=
  match v with VStr _ => false | _ => true end.

End Props.

(** ** Inputs used in closed statements *)

Module Samples.

Import Py Openmc.
Local Open Scope R_scope.

(** A parser that ignores the command line and answers with the
    defaults; it stands in where a closed statement needs one. *)
Definition defaults_parser (p : Argparse.ArgumentParser) (argv : list string)
  : result Argparse.Namespace :=
  inr [("element", VStr "W"); ("density", VFloat 19.28);
       ("inner_radius", VInt 1000); ("shell_thickness", VInt 5)].

(** The shell material of the defaults. *)
Definition tungsten : Material :=
  {| mat_name := "W_Shell"; mat_elements := [("W", 1, "ao")];
     mat_density := Some ("g/cm3", 19.28) |}.

(** A result file without tallies. *)
Definition fs_no_tally : filesystem :=
  [("statepoint.10.h5", StatePointFile {| tallies := [] |})].

(** A result file as a run of the shell model would leave it, here
    with two energy groups and one cell. *)
Definition spectrum_tally : Tally :=
  {| tally_name := "Flux spectrum";
     filters := [EnergyFilter [1; 10; 100]; CellFilter [CellId 2]];
     scores := ["flux"];
     mean := Some [[[3]]; [[7]]] |}.

Definition fs_shell_run : filesystem :=
  [("statepoint.10.h5", StatePointFile {| tallies := [spectrum_tally] |})].

(** A result file whose spectrum tally lists a filter over the
    scattering cosine before its energy filter. *)
Definition mu_first_tally : Tally :=
  {| tally_name := "Flux spectrum";
     filters := [MuFilter [-1; 0; 1]; EnergyFilter [1; 10; 100]];
     scores := ["flux"];
     mean := Some [[[3]]; [[7]]; [[5]]; [[2]]] |}.

Definition fs_mu_first : filesystem :=
  [("statepoint.10.h5", StatePointFile {| tallies := [mu_first_tally] |})].

(** A spectrum tally that lists its cell filter first. *)
Definition cell_first_tally : Tally :=
  {| tally_name := "Flux spectrum";
     filters := [CellFilter [CellId 2]; EnergyFilter [1; 10; 100]];
     scores := ["flux"];
     mean := Some [[[3]]; [[7]]] |}.

Definition fs_cell_first : filesystem :=
  [("statepoint.10.h5", StatePointFile {| tallies := [cell_first_tally] |})].

(** A result file with other tallies around the spectrum tally, one
    of them a second tally of the same name. *)
Definition other_tally : Tally :=
  {| tally_name := "Total neutron tally";
     filters := [CellFilter [CellId 2]];
     scores := ["flux"; "elastic"; "absorption"];
     mean := Some [[[4; 5; 6]]] |}.

Definition fs_many_tallies : filesystem :=
  [("statepoint.10.h5",
    StatePointFile {| tallies := [other_tally; spectrum_tally; mu_first_tally] |})].

End Samples.

(** ** The builder over any answers of its libraries

    The libraries are not part of the repository.  At three places
    [build_shell_model.py] asks them for something they do not have:
    the name [Parser] of the argparse module, the operator [&] with a
    surface on the left, and the subscript of a geometry.  Here the
    script is embedded once more with those three answers as
    parameters, statement by statement as before.  [actual] gives the
    answers of the libraries as modelled above, and the script over
    [actual] is the script of [BuildShellModel]. *)

Module AnyLibrary.

Import Py Openmc.
Local Open Scope R_scope.

Record Library : Type := {
  argparse_getattr : string -> result Argparse.attr;
  surface_and : operand -> Region -> result Region;
  geometry_getitem : Geometry -> nat -> result Cell
}.

Definition actual : Library :=
  {| argparse_getattr := Argparse.getattr;
     surface_and := and_;
     geometry_getitem := Geometry_getitem |}.



Section Script.

Variable L : Library.

Variable ArgumentParser_parse_args :
  Argparse.ArgumentParser -> list string -> result Argparse.Namespace.

(** [create_geometry(r_1, r_2, shell_mat)] *)
Definition create_geometry (r_1 r_2 : value) (shell_mat : Material) : M Geometry :=
  R_1 <- Sphere_new r_1 "transmission" ;;
  R_2 <- Sphere_new r_2 "vacuum" ;;
  Void <- Cell_new None (neg R_1) ;;
  shell_region <- lift (surface_and L (OSurface R_1) (neg R_2)) ;;
  Shell <- Cell_new (Some shell_mat) shell_region ;;
  Geometry_new [Void; Shell].

(** [parse_args()] *)
Definition parse_args (argv : list string) : M Argparse.Namespace :=
  Parser <- lift (argparse_getattr L "Parser") ;;
  parser <- lift (Argparse.construct Parser) ;;
  let parser := Argparse.add_argument parser ["--element"; "-e"] (VStr "W") in
  let parser := Argparse.add_argument parser ["--density"; "-d"] (VFloat 19.28) in
  let parser := Argparse.add_argument parser ["--inner_radius"; "-r"] (VInt 1000) in
  let parser := Argparse.add_argument parser ["--shell_thickness"; "-t"] (VInt 5) in
  lift (ArgumentParser_parse_args parser argv).

(** The statements of [build_shell_model()] after the arguments are
    parsed. *)
Definition build_from_args (args : Argparse.Namespace) : M unit :=
  element <- lift (Argparse.ns_getattr args "element") ;;
  density <- lift (Argparse.ns_getattr args "density") ;;
  materials <- BuildShellModel.create_materials element density ;;
  r_1 <- lift (Argparse.ns_getattr args "inner_radius") ;;
  inner <- lift (Argparse.ns_getattr args "inner_radius") ;;
  thickness <- lift (Argparse.ns_getattr args "thickness") ;;
  r_2 <- lift (Py.add inner thickness) ;;
  shell_mat <- lift (getitem materials 0) ;;
  geometry <- create_geometry r_1 r_2 shell_mat ;;
  source <- BuildShellModel.create_isotropic_fusion_point_source ;;
  cell <- lift (geometry_getitem L geometry 1) ;;
  tallies <- BuildShellModel.create_tallies cell ;;
  settings <- BuildShellModel.setup_problem None None ;;
  ret tt.

(** [build_shell_model()] *)
Definition build_shell_model (argv : list string) : M unit :=
  args <- parse_args argv ;;
  build_from_args args.

End Script.

End AnyLibrary.

(** * Theorems *)

Import Py Openmc BuildShellModel PlotShellResults Props.
Local Open Scope R_scope.

(** ** The builder's functions *)

(** C7. For every element symbol and density, [create_materials]
    returns a collection of exactly one material, named ["W_Shell"],
    made of the given element with fraction 1.0, its density set to
    the given value in g/cm3. *)
Theorem create_materials_single_material :
  forall (element : string) (density : R),
    exists W,
      outcome (create_materials (VStr element) (VFloat density)) = inr [W] /\
      mat_name W = "W_Shell" /\
      mat_elements W = [(element, 1, "ao")] /\
      mat_density W = Some ("g/cm3", density).
Proof.
  intros element density. eexists. split; [reflexivity|].
  cbn. repeat split. repeat f_equal. lra.
Qed.

(** C3. [create_isotropic_fusion_point_source] returns a neutron
    source at the origin; it carries no angular distribution, so the
    direction is sampled isotropically; its energy distribution puts
    probability 1 on the single energy 14e6 eV; its strength is 1. *)
Theorem create_isotropic_fusion_point_source_spec :
  exists s,
    outcome create_isotropic_fusion_point_source = inr s /\
    particle s = "neutron" /\
    space s = Some (Point (0, 0, 0)) /\
    angle s = None /\
    direction s = Isotropic /\
    energy s = Some (Discrete [14000000] [1]) /\
    strength s = 1.
Proof.
  eexists. split; [reflexivity|]. cbn.
  repeat split; repeat f_equal; lra.
Qed.

(** C5. Whatever the command line, [parse_args] raises: the argparse
    module has no attribute [Parser].  So [build_shell_model] never
    completes, and its run constructs no object at all. *)
Theorem build_shell_model_never_completes :
  forall parse (argv : list string),
    outcome (parse_args parse argv)
      = inl (AttributeError "module 'argparse' has no attribute 'Parser'") /\
    outcome (build_shell_model parse argv)
      = inl (AttributeError "module 'argparse' has no attribute 'Parser'") /\
    constructed (trace (build_shell_model parse argv)) = [].
Proof.
  intros parse argv. repeat split.
Qed.

(** C2, as the code has it.  For all radii and every shell material,
    [create_geometry] raises a [TypeError] while it builds the region
    of the shell: the left operand of [&] is the surface [R_1], not a
    half-space of it.  The two spheres and the void cell are
    constructed before that; no second cell and no geometry is.
    Whatever values are passed for the radii, the call raises. *)
Theorem create_geometry_raises :
  forall (r_1 r_2 : R) (shell_mat : Material),
    create_geometry (VFloat r_1) (VFloat r_2) shell_mat
      = ([New CSphere; New CSphere; New CCell],
         inl (TypeError "unsupported operand type(s) for &: 'Sphere' and 'Halfspace'")) /\
    forall v_1 v_2 : value, raises (create_geometry v_1 v_2 shell_mat) = true.
Proof.
  intros r_1 r_2 shell_mat. split; [reflexivity|].
  intros [s1|z1|x1] [s2|z2|x2]; reflexivity.
Qed.

(** The same with the default radii of the command line. *)
Example create_geometry_defaults :
  create_geometry (VInt 1000) (VInt 1005) Samples.tungsten
    = ([New CSphere; New CSphere; New CCell],
       inl (TypeError "unsupported operand type(s) for &: 'Sphere' and 'Halfspace'")).
Proof. reflexivity. Qed.

(** ** The energy grid of the tallies *)

Lemma linspace_length (a b : R) (n : nat) :
  length (Numpy.linspace a b n) = n.
Proof.
  destruct n as [|[|n]]; [reflexivity | reflexivity |].
  unfold Numpy.linspace.
  rewrite length_app, length_map, length_seq. simpl. lia.
Qed.

Lemma linspace_hd (a b : R) (n : nat) :
  hd 0 (Numpy.linspace a b (S (S n))) = a.
Proof.
  unfold Numpy.linspace. cbn [seq map app hd]. cbn [INR]. ring.
Qed.

Lemma linspace_last (a b : R) (n : nat) :
  last (Numpy.linspace a b (S (S n))) 0 = b.
Proof.
  unfold Numpy.linspace. apply last_last.
Qed.

Lemma linspace_ge (a b : R) (n : nat) :
  a <= b -> Forall (fun y => a <= y) (Numpy.linspace a b n).
Proof.
  intros Hab. destruct n as [|[|n]].
  - constructor.
  - constructor; [lra | constructor].
  - unfold Numpy.linspace. apply Forall_app. split.
    + apply Forall_map. apply Forall_forall. intros i _.
      assert (Hi : 0 <= INR i) by apply pos_INR.
      assert (Hn : 0 < INR (S n)) by (apply lt_0_INR; lia).
      assert (Hs : 0 <= (b - a) / INR (S n)).
      { apply Rmult_le_pos; [lra|]. left. now apply Rinv_0_lt_compat. }
      pose proof (Rmult_le_pos _ _ Hi Hs). lra.
    + constructor; [exact Hab | constructor].
Qed.

Lemma linspace_nth (a b : R) (n i : nat) :
  (i <= S n)%nat ->
  nth i (Numpy.linspace a b (S (S n))) 0 = a + INR i * ((b - a) / INR (S n)).
Proof.
  intros Hi. unfold Numpy.linspace. cbv zeta.
  set (f := fun j : nat => INR j * ((b - a) / INR (S n)) + a).
  destruct (Nat.eq_dec i (S n)) as [->|Hne].
  - rewrite app_nth2 by (rewrite length_map, length_seq; lia).
    rewrite length_map, length_seq, Nat.sub_diag. cbn [nth].
    field. apply not_0_INR. lia.
  - rewrite app_nth1 by (rewrite length_map, length_seq; lia).
    rewrite (nth_indep _ 0 (f 0%nat)) by (rewrite length_map, length_seq; lia).
    rewrite (map_nth f), seq_nth by lia. unfold f. cbn [Nat.add]. ring.
Qed.

Lemma logspace_nth (a b : R) (n i : nat) :
  (i <= S n)%nat ->
  nth i (Numpy.logspace a b (S (S n))) 0
    = Rpower 10 (a + INR i * ((b - a) / INR (S n))).
Proof.
  intros Hi. unfold Numpy.logspace.
  rewrite (nth_indep _ 0 (Rpower 10 0))
    by (rewrite length_map, linspace_length; lia).
  rewrite (map_nth (fun y => Rpower 10 y)). f_equal. now apply linspace_nth.
Qed.

Lemma logspace_hd (a b : R) (n : nat) :
  hd 0 (Numpy.logspace a b (S (S n))) = Rpower 10 a.
Proof.
  unfold Numpy.logspace.
  pose proof (linspace_hd a b n) as H.
  destruct (Numpy.linspace a b (S (S n))) as [|y l] eqn:E.
  - pose proof (linspace_length a b (S (S n))) as L. rewrite E in L. discriminate.
  - cbn in *. now subst.
Qed.

Lemma logspace_last (a b : R) (n : nat) :
  last (Numpy.logspace a b (S (S n))) 0 = Rpower 10 b.
Proof.
  unfold Numpy.logspace, Numpy.linspace.
  rewrite map_app. cbn [map]. apply last_last.
Qed.

Lemma Rpower_10_8_le (y : R) : 8 <= y -> 100000000 <= Rpower 10 y.
Proof.
  intros Hy.
  replace 100000000 with (Rpower 10 (INR 8)).
  - apply Rle_Rpower; [lra|]. cbn [INR]. lra.
  - rewrite Rpower_pow by lra. cbn [pow]. lra.
Qed.

Lemma create_tallies_edges (cell : Cell) :
  exists ts,
    outcome (create_tallies cell) = inr ts /\
    spectrum_edges ts = Numpy.logspace 5e2 14.001e6 501.
Proof.
  eexists. split; reflexivity.
Qed.

(** C6, as the code has it.  The energy filter of [create_tallies]
    has 501 edges.  They are ten raised to 501 evenly spaced
    exponents from 5e2 to 14.001e6: edge number [i] is
    10^(500 + 28001 i), so the first edge is 10^500 and the last
    10^14001000.  Every edge lies above 14.001e6: no edge equals
    5e2 eV, and none equals 14.001e6 eV.  (The statement is one of
    exact arithmetic; in binary64 every such power overflows.) *)
Theorem create_tallies_energy_edges :
  forall cell : Cell,
    exists ts,
      outcome (create_tallies cell) = inr ts /\
      length (spectrum_edges ts) = 501%nat /\
      (forall i, (i <= 500)%nat ->
                 nth i (spectrum_edges ts) 0 = Rpower 10 (500 + 28001 * INR i)) /\
      hd 0 (spectrum_edges ts) = Rpower 10 500 /\
      last (spectrum_edges ts) 0 = Rpower 10 14001000 /\
      Forall (fun e => 14.001e6 < e) (spectrum_edges ts) /\
      hd 0 (spectrum_edges ts) <> 5e2 /\
      last (spectrum_edges ts) 0 <> 14.001e6.
Proof.
  intros cell. destruct (create_tallies_edges cell) as (ts & Hts & Hedges).
  exists ts. split; [exact Hts|]. rewrite Hedges.
  assert (Hall : Forall (fun e => 14.001e6 < e) (Numpy.logspace 5e2 14.001e6 501)).
  { unfold Numpy.logspace. apply Forall_map.
    eapply Forall_impl; [| apply (linspace_ge 5e2 14.001e6 501); lra].
    intros y Hy. cbv beta in Hy.
    pose proof (Rpower_10_8_le y). lra. }
  assert (Hhd : hd 0 (Numpy.logspace 5e2 14.001e6 501) = Rpower 10 500).
  { change 501%nat with (S (S 499)). rewrite logspace_hd. f_equal. lra. }
  assert (Hlast : last (Numpy.logspace 5e2 14.001e6 501) 0 = Rpower 10 14001000).
  { change 501%nat with (S (S 499)). rewrite logspace_last. f_equal. lra. }
  assert (Hnth : forall i, (i <= 500)%nat ->
            nth i (Numpy.logspace 5e2 14.001e6 501) 0
              = Rpower 10 (500 + 28001 * INR i)).
  { intros i Hi. change 501%nat with (S (S 499)).
    rewrite logspace_nth by exact Hi. f_equal.
    replace (INR 500) with 500 by (rewrite INR_IZR_INZ; reflexivity).
    lra. }
  refine (conj _ (conj Hnth (conj Hhd (conj Hlast (conj Hall (conj _ _)))))).
  - unfold Numpy.logspace. now rewrite length_map, linspace_length.
  - rewrite Hhd. pose proof (Rpower_10_8_le 500). lra.
  - rewrite Hlast. pose proof (Rpower_10_8_le 14001000). lra.
Qed.

(** The slip in [create_geometry] is the missing sign: the region
    between two spheres is the intersection of two half-spaces. *)
Lemma and_halfspaces (s1 s2 : Sphere) :
  and_ (ORegion (pos s1)) (neg s2) = inr (Intersection [pos s1; neg s2]).
Proof. reflexivity. Qed.

(** ** What a run of the builder does besides constructing objects *)

Lemma only_constructs_ret {A : Type} (x : A) : only_constructs (ret x).
Proof. constructor. Qed.

Lemma only_constructs_lift {A : Type} (r : result A) : only_constructs (lift r).
Proof. constructor. Qed.

Lemma only_constructs_new (c : class) : only_constructs (emit (New c)).
Proof. constructor; [now exists c | constructor]. Qed.

Lemma only_constructs_bind {A B : Type} (m : M A) (k : A -> M B) :
  only_constructs m -> (forall a, only_constructs (k a)) ->
  only_constructs (bind m k).
Proof.
  unfold only_constructs, trace, bind.
  intros Hm Hk. destruct m as [t [e|a]]; [exact Hm|].
  specialize (Hk a). destruct (k a) as [t' r']. cbn in *.
  apply Forall_app. now split.
Qed.

Create HintDb constructs.
#[local] Hint Resolve only_constructs_ret only_constructs_lift
  only_constructs_new : constructs.

Ltac constructs :=
  repeat (apply only_constructs_bind; [| intros]);
  cbv zeta; auto with constructs.

Lemma create_materials_only_constructs (element density : value) :
  only_constructs (create_materials element density).
Proof.
  unfold create_materials, Material_new, add_element, set_density, Materials_new.
  constructs.
Qed.

Lemma create_geometry_only_constructs (r_1 r_2 : value) (shell_mat : Material) :
  only_constructs (create_geometry r_1 r_2 shell_mat).
Proof.
  unfold create_geometry, Sphere_new, Cell_new, Geometry_new.
  constructs.
Qed.

Lemma create_source_only_constructs :
  only_constructs create_isotropic_fusion_point_source.
Proof.
  unfold create_isotropic_fusion_point_source, Point_new, Discrete_new, Source_new.
  constructs.
Qed.

Lemma create_tallies_only_constructs (cell : Cell) :
  only_constructs (create_tallies cell).
Proof.
  unfold create_tallies, CellFilter_new, EnergyFilter_new, Tally_new, Tallies_new.
  constructs.
Qed.

Lemma setup_problem_only_constructs (b n : option Z) :
  only_constructs (setup_problem b n).
Proof.
  unfold setup_problem, Settings_new. constructs.
Qed.

#[local] Hint Resolve create_materials_only_constructs
  create_geometry_only_constructs create_source_only_constructs
  create_tallies_only_constructs setup_problem_only_constructs : constructs.

Lemma build_from_args_only_constructs (args : Argparse.Namespace) :
  only_constructs (build_from_args args).
Proof.
  unfold build_from_args. constructs.
Qed.

Lemma build_shell_model_only_constructs parse (argv : list string) :
  only_constructs (build_shell_model parse argv).
Proof.
  unfold build_shell_model, parse_args.
  pose proof build_from_args_only_constructs. constructs.
Qed.

Lemma constructor_calls_quiet (t : list event) :
  Forall (fun e => exists c, e = New c) t ->
  handoffs t = [] /\ reads t = [] /\ writes t = [].
Proof.
  induction 1 as [|e t [c ->] _ (IH1 & IH2 & IH3)].
  - repeat split.
  - unfold handoffs, reads, writes in *. simpl. now rewrite IH1, IH2, IH3.
Qed.

Lemma only_constructs_quiet {A : Type} (m : M A) :
  only_constructs m ->
  handoffs (trace m) = [] /\ reads (trace m) = [] /\ writes (trace m) = [].
Proof. apply constructor_calls_quiet. Qed.

(** The script over the libraries as modelled is the script of
    [BuildShellModel]. *)
Lemma any_library_actual parse (argv : list string) (args : Argparse.Namespace) :
  AnyLibrary.build_shell_model AnyLibrary.actual parse argv
    = build_shell_model parse argv /\
  AnyLibrary.build_from_args AnyLibrary.actual args = build_from_args args.
Proof. split; reflexivity. Qed.











(** ** The plotter *)

(** The first column of the bins of a filter over real intervals is
    the list of the lower edges. *)
Lemma bins_lower_edges (vs : list R) :
  map fst (combine (removelast vs) (tl vs)) = lower_edges vs.
Proof.
  unfold lower_edges. induction vs as [|a l IH]; [reflexivity|].
  destruct l as [|b l']; [reflexivity|].
  cbn [tl] in *. cbn [removelast combine map fst].
  f_equal. exact IH.
Qed.

(** What [extract_flux_spectrum] returns when every step succeeds. *)
Lemma extract_flux_spectrum_ok
      (fs : filesystem) (sp : StatePoint) (t : Tally) (f : Filter)
      (rows : list (R * R)) (values : list (list (list R))) :
  Py.lookup "statepoint.10.h5" fs = Some (StatePointFile sp) ->
  get_tally sp "Flux spectrum" = inr t ->
  nth_error (filters t) 0 = Some f ->
  bins f = Rows rows ->
  mean t = Some values ->
  extract_flux_spectrum fs
    = ([OpenRead "statepoint.10.h5"; New CStatePoint],
       inr (map fst rows, Numpy.ravel3 values)).
Proof.
  intros Hfs Ht Hf Hb Hm.
  unfold extract_flux_spectrum, StatePoint_open, getitem, get_values_mean.
  rewrite Hfs. cbn -[nth_error bins]. rewrite Ht. cbn -[nth_error bins]. rewrite Hf. cbn -[nth_error bins]. rewrite Hb. cbn -[nth_error bins].
  rewrite Hm. reflexivity.
Qed.

(** Conversely, a returned pair comes from such a file. *)
Lemma extract_flux_spectrum_inv
      (fs : filesystem) (energies flux : list R) :
  outcome (extract_flux_spectrum fs) = inr (energies, flux) ->
  exists sp t f rows values,
    Py.lookup "statepoint.10.h5" fs = Some (StatePointFile sp) /\
    get_tally sp "Flux spectrum" = inr t /\
    nth_error (filters t) 0 = Some f /\
    bins f = Rows rows /\
    mean t = Some values /\
    energies = map fst rows /\
    flux = Numpy.ravel3 values.
Proof.
  unfold extract_flux_spectrum, StatePoint_open, getitem, get_values_mean.
  destruct (Py.lookup "statepoint.10.h5" fs) as [[sp|]|] eqn:Hfs;
    cbn -[nth_error bins]; try discriminate.
  destruct (get_tally sp "Flux spectrum") as [e|t] eqn:Ht; cbn -[nth_error bins]; try discriminate.
  destruct (nth_error (filters t) 0) as [f|] eqn:Hf; cbn -[nth_error bins]; try discriminate.
  destruct (bins f) as [rows|cs] eqn:Hb; cbn -[nth_error bins]; try discriminate.
  destruct (mean t) as [values|] eqn:Hm; cbn -[nth_error bins]; try discriminate.
  intros H. injection H as <- <-.
  exists sp, t, f, rows, values. repeat split; assumption.
Qed.

(** The file accesses of the two functions that touch files. *)
Lemma extract_flux_spectrum_reads (fs : filesystem) :
  (exists t', trace (extract_flux_spectrum fs) = OpenRead "statepoint.10.h5" :: t') /\
  reads (trace (extract_flux_spectrum fs)) = ["statepoint.10.h5"] /\
  saved (trace (extract_flux_spectrum fs)) = [] /\
  writes (trace (extract_flux_spectrum fs)) = [].
Proof.
  unfold extract_flux_spectrum, StatePoint_open, getitem, get_values_mean.
  destruct (Py.lookup "statepoint.10.h5" fs) as [[sp|]|]; cbn -[nth_error bins];
    [| repeat split; eexists; reflexivity ..].
  destruct (get_tally sp "Flux spectrum") as [e|t]; cbn -[nth_error bins];
    [repeat split; eexists; reflexivity |].
  destruct (nth_error (filters t) 0) as [f|]; cbn -[nth_error bins];
    [| repeat split; eexists; reflexivity].
  destruct (bins f) as [rows|cs]; cbn -[nth_error bins];
    [| repeat split; eexists; reflexivity].
  destruct (mean t) as [values|]; cbn -[nth_error bins]; repeat split; eexists; reflexivity.
Qed.

Lemma generate_plot_quiet (energies flux : list R) :
  reads (trace (generate_plot energies flux)) = [] /\
  saved (trace (generate_plot energies flux)) = [] /\
  writes (trace (generate_plot energies flux)) = [].
Proof.
  unfold generate_plot, Pyplot.subplots, Pyplot.loglog.
  destruct (Nat.eqb (length energies) (length flux)); cbn; repeat split.
Qed.

Lemma trace_bind {A B : Type} (m : M A) (k : A -> M B) :
  trace (bind m k) =
  match outcome m with
  | inl _ => trace m
  | inr a => trace m ++ trace (k a)
  end.
Proof.
  destruct m as [t [e|a]]; cbn; [reflexivity|].
  destruct (k a); reflexivity.
Qed.

Lemma outcome_bind {A B : Type} (m : M A) (k : A -> M B) :
  outcome (bind m k) =
  match outcome m with
  | inl e => inl e
  | inr a => outcome (k a)
  end.
Proof.
  destruct m as [t [e|a]]; cbn; [reflexivity|].
  destruct (k a); reflexivity.
Qed.

Lemma reads_app (t1 t2 : list event) : reads (t1 ++ t2) = reads t1 ++ reads t2.
Proof. apply flat_map_app. Qed.

Lemma writes_app (t1 t2 : list event) : writes (t1 ++ t2) = writes t1 ++ writes t2.
Proof. apply flat_map_app. Qed.

Lemma saved_app (t1 t2 : list event) : saved (t1 ++ t2) = saved t1 ++ saved t2.
Proof. apply flat_map_app. Qed.

Lemma plot_shell_results_files (fs : filesystem) :
  reads (trace (plot_shell_results fs)) = ["statepoint.10.h5"] /\
  incl (writes (trace (plot_shell_results fs))) ["neutron_flux_v_energy.png"].
Proof.
  destruct (extract_flux_spectrum_reads fs) as (_ & Hr & _ & Hw).
  unfold plot_shell_results. rewrite trace_bind.
  destruct (outcome (extract_flux_spectrum fs)) as [e|[energies flux]].
  - rewrite Hr, Hw. split; [reflexivity | apply incl_nil_l].
  - destruct (generate_plot_quiet energies flux) as (Gr & _ & Gw).
    rewrite reads_app, writes_app, Hr, Hw, !trace_bind.
    destruct (outcome (generate_plot energies flux)) as [e|fig].
    + rewrite Gr, Gw. split; [reflexivity | apply incl_nil_l].
    + rewrite reads_app, writes_app, Gr, Gw. cbn.
      split; [reflexivity | apply incl_refl].
Qed.

(** C10. [extract_flux_spectrum] opens the file named
    ["statepoint.10.h5"] first, whatever the working directory holds,
    and opens no other file.  When that file is absent, or is a result
    file without a tally named ["Flux spectrum"], it raises, and so
    does [plot_shell_results], which then saves no plot. *)
Theorem extract_flux_spectrum_fixed_file_or_raises :
  forall fs : filesystem,
    (exists t', trace (extract_flux_spectrum fs)
                = OpenRead "statepoint.10.h5" :: t') /\
    reads (trace (extract_flux_spectrum fs)) = ["statepoint.10.h5"] /\
    (Py.lookup "statepoint.10.h5" fs = None \/
     (exists sp, Py.lookup "statepoint.10.h5" fs = Some (StatePointFile sp) /\
                 has_tally "Flux spectrum" sp = false) ->
     raises (extract_flux_spectrum fs) = true /\
     raises (plot_shell_results fs) = true /\
     saved (trace (plot_shell_results fs)) = []).
Proof.
  intros fs.
  destruct (extract_flux_spectrum_reads fs) as (Hfirst & Hreads & Hsaved & _).
  split; [exact Hfirst|]. split; [exact Hreads|].
  intros Hbad.
  assert (Hraise : raises (extract_flux_spectrum fs) = true).
  { unfold raises, extract_flux_spectrum, StatePoint_open.
    destruct Hbad as [Habsent | (sp & Hsp & Hno)].
    - rewrite Habsent. reflexivity.
    - rewrite Hsp. cbn -[nth_error bins].
      unfold get_tally.
      assert (Hfind : find (fun t => (tally_name t =? "Flux spectrum")%string)
                           (tallies sp) = None).
      { unfold has_tally in Hno. induction (tallies sp) as [|t l IH]; [reflexivity|].
        cbn in Hno. apply orb_false_iff in Hno as [Ht Hl].
        cbn [find]. rewrite Ht. now apply IH. }
      rewrite Hfind. reflexivity. }
  split; [exact Hraise|].
  unfold raises in *. unfold plot_shell_results.
  rewrite outcome_bind, trace_bind.
  destruct (outcome (extract_flux_spectrum fs)) as [e|p]; [|discriminate].
  split; [reflexivity | exact Hsaved].
Qed.

(** C10 at a result file without tallies. *)
Lemma extract_flux_spectrum_fixed_file_or_raises_witness :
  raises (extract_flux_spectrum Samples.fs_no_tally) = true /\
  raises (plot_shell_results Samples.fs_no_tally) = true /\
  saved (trace (plot_shell_results Samples.fs_no_tally)) = [].
Proof.
  apply (proj2 (proj2 (extract_flux_spectrum_fixed_file_or_raises Samples.fs_no_tally))).
  right. exists {| tallies := [] |}. split; reflexivity.
Defined.




(** Where the energy filter is listed first, as the builder lists
    it, the energies are the lower edges of the bins of the energy
    filter, and the flux values the stored means, flattened. *)
Lemma extract_flux_spectrum_energy_filter_first
      (fs : filesystem) (sp : StatePoint) (t : Tally)
      (vs : list R) (rest : list Filter) (values : list (list (list R))) :
  Py.lookup "statepoint.10.h5" fs = Some (StatePointFile sp) ->
  get_tally sp "Flux spectrum" = inr t ->
  filters t = EnergyFilter vs :: rest ->
  mean t = Some values ->
  outcome (extract_flux_spectrum fs) = inr (lower_edges vs, Numpy.ravel3 values) /\
  energy_filter_values t = Some vs.
Proof.
  intros Hfs Ht Hf Hm. split.
  - rewrite (extract_flux_spectrum_ok fs sp t (EnergyFilter vs)
               (combine (removelast vs) (tl vs)) values Hfs Ht).
    + cbn [outcome snd]. now rewrite bins_lower_edges.
    + now rewrite Hf.
    + reflexivity.
    + exact Hm.
  - unfold energy_filter_values. now rewrite Hf.
Qed.

(** C9, as the code has it.  [extract_flux_spectrum] takes the
    energies from the first filter of the tally, whatever that filter
    is.  For a result file whose spectrum tally lists a filter over
    the scattering cosine, with edges -1, 0, 1, before its energy
    filter, with edges 1, 10, 100: the flux values are the stored
    means, flattened; the energies returned are -1 and 0, the lower
    edges of the cosine bins, not 1 and 10, the lower edges of the
    bins of the energy filter. *)
Theorem extract_flux_spectrum_energies_of_first_filter :
  outcome (extract_flux_spectrum Samples.fs_mu_first)
    = inr ([-1; 0], [3; 7; 5; 2]) /\
  mean Samples.mu_first_tally = Some [[[3]]; [[7]]; [[5]]; [[2]]] /\
  energy_filter_values Samples.mu_first_tally = Some [1; 10; 100] /\
  lower_edges [1; 10; 100] = [1; 10] /\
  [-1; 0] <> lower_edges [1; 10; 100] /\
  ~ returns_energy_filter_edges Samples.fs_mu_first.
Proof.
  assert (Hne : [-1; 0] <> lower_edges [1; 10; 100]).
  { cbn. intros H. injection H as H1 _. lra. }
  repeat split; try reflexivity; try exact Hne.
  intros H.
  destruct (H [-1; 0] [3; 7; 5; 2] eq_refl)
    as (sp & t & vs & values & Hsp & Ht & Hvs & He & _).
  injection Hsp as <-. injection Ht as <-. injection Hvs as <-.
  exact (Hne He).
Qed.

(** ** The two scripts together *)

(** C8. The builder reads and writes no file: not in a run from the
    command line, and not in the statements after argument parsing,
    whatever the arguments.  The plotter reads the result file
    ["statepoint.10.h5"] and nothing else, and writes at most the
    image file.  So no file written by one script is read by the
    other. *)
Theorem scripts_share_no_file :
  forall parse (argv : list string) (args : Argparse.Namespace) (fs : filesystem),
    let builder := trace (build_shell_model parse argv) in
    let statements := trace (build_from_args args) in
    let plotter := trace (plot_shell_results fs) in
    reads builder = [] /\ writes builder = [] /\
    reads statements = [] /\ writes statements = [] /\
    reads plotter = ["statepoint.10.h5"] /\
    incl (writes plotter) ["neutron_flux_v_energy.png"] /\
    (forall path, In path (writes builder ++ writes statements) ->
                  ~ In path (reads plotter)) /\
    (forall path, In path (writes plotter) ->
                  ~ In path (reads builder ++ reads statements)).
Proof.
  intros parse argv args fs builder statements plotter.
  destruct (only_constructs_quiet _ (build_shell_model_only_constructs parse argv))
    as (_ & Hbr & Hbw).
  destruct (only_constructs_quiet _ (build_from_args_only_constructs args))
    as (_ & Hsr & Hsw).
  destruct (plot_shell_results_files fs) as (Hpr & Hpw).
  subst builder statements plotter.
  rewrite Hbr, Hbw, Hsr, Hsw, Hpr.
  repeat split; try assumption; intros path Hin; [destruct Hin | intros []].
Qed.

(** * Further properties of the two scripts *)

(** ** The builder *)

(** X1. [setup_problem] never raises and constructs one settings
    object.  Whatever it is given, the run mode is ["fixed source"],
    not the engine's default; a batch or particle count that is
    passed is kept as it is, and one that is left out is 10
    respectively 100000. *)
Theorem setup_problem_fixed_source :
  forall (b n : option Z),
    let b' := match b with Some x => x | None => 10%Z end in
    let n' := match n with Some x => x | None => 100000%Z end in
    (0 < b')%Z -> (0 < n')%Z ->
    setup_problem b n
      = ([New CSettings],
         inr {| batches := Some b'; particles := Some n';
                run_mode := "fixed source" |}).
Proof.
  intros b n b' n' _ _. subst b' n'. reflexivity.
Qed.

(** X1 with both arguments left out, as [build_shell_model] calls it. *)
Lemma setup_problem_fixed_source_witness :
  setup_problem None None
    = ([New CSettings],
       inr {| batches := Some 10%Z; particles := Some 100000%Z;
              run_mode := "fixed source" |}).
Proof.
  apply (setup_problem_fixed_source None None); reflexivity.
Defined.

(** X2. For every cell, [create_tallies] returns exactly two tallies
    without results, both restricted to that cell by one and the same
    cell filter: ["Total neutron tally"], scoring flux, elastic and
    absorption over the cell filter alone, and ["Flux spectrum"],
    scoring flux, with the energy filter of 501 edges listed before
    the cell filter. *)
Theorem create_tallies_two_tallies :
  forall cell : Cell,
    exists energies,
      create_tallies cell
        = ([New CCellFilter; New CEnergyFilter; New CTally; New CTally; New CTallies],
           inr [ {| tally_name := "Total neutron tally";
                    filters := [CellFilter [CellObject cell]];
                    scores := ["flux"; "elastic"; "absorption"];
                    mean := None |};
                 {| tally_name := "Flux spectrum";
                    filters := [EnergyFilter energies; CellFilter [CellObject cell]];
                    scores := ["flux"];
                    mean := None |} ]) /\
      length energies = 501%nat.
Proof.
  intros cell. exists (Numpy.logspace 5e2 14.001e6 501).
  split; [reflexivity|].
  unfold Numpy.logspace. now rewrite length_map, linspace_length.
Qed.

(** X4. Whatever namespace the parser would deliver, the statements
    of [build_shell_model] after argument parsing raise.  They never
    get past the void cell: what they construct is an initial part of
    material, materials collection, two spheres, one cell, and so
    never a geometry, a source, a tally or run settings. *)
Theorem build_from_args_never_completes :
  forall args : Argparse.Namespace,
    raises (build_from_args args) = true /\
    is_prefix (constructed (trace (build_from_args args)))
              [CMaterial; CMaterials; CSphere; CSphere; CCell] = true.
Proof.
  intros args. unfold build_from_args, Argparse.ns_getattr.
  destruct (Py.lookup "element" args) as [[e|e|e]|];
    destruct (Py.lookup "density" args) as [[d|d|d]|];
    try (split; reflexivity);
    destruct (Py.lookup "inner_radius" args) as [[r|r|r]|];
    try (split; reflexivity);
    destruct (Py.lookup "thickness" args) as [[th|th|th]|];
    split; reflexivity.
Qed.

(** X5. The parser's options name the thickness [shell_thickness];
    the statements read [thickness].  For every namespace without an
    attribute [thickness] whose element is a string, whose density is
    a number and which has an inner radius, the run raises an
    [AttributeError] for [thickness], having constructed the
    materials and nothing of the geometry. *)
Theorem build_from_args_missing_thickness :
  forall (args : Argparse.Namespace) (element density inner_radius : value),
    Py.lookup "element" args = Some element ->
    Py.lookup "density" args = Some density ->
    Py.lookup "inner_radius" args = Some inner_radius ->
    Py.lookup "thickness" args = None ->
    is_str element && is_number density = true ->
    build_from_args args
      = ([New CMaterial; New CMaterials],
         inl (AttributeError "'Namespace' object has no attribute 'thickness'")).
Proof.
  intros args element density inner_radius He Hd Hr Ht Hty.
  unfold build_from_args, Argparse.ns_getattr.
  rewrite He, Hd, Hr, Ht.
  destruct element as [s|z|x]; destruct density as [s'|z'|x'];
    try discriminate Hty; reflexivity.
Qed.

(** X5 at the namespace of the parser's defaults. *)
Lemma build_from_args_missing_thickness_witness :
  build_from_args
    [("element", VStr "W"); ("density", VFloat 19.28);
     ("inner_radius", VInt 1000); ("shell_thickness", VInt 5)]
    = ([New CMaterial; New CMaterials],
       inl (AttributeError "'Namespace' object has no attribute 'thickness'")).
Proof.
  apply (build_from_args_missing_thickness _
           (VStr "W") (VFloat 19.28) (VInt 1000));
    reflexivity.
Defined.

(** ** The plotter *)

Lemma extract_flux_spectrum_trace (fs : filesystem) :
  trace (extract_flux_spectrum fs) = [OpenRead "statepoint.10.h5"] \/
  trace (extract_flux_spectrum fs) = [OpenRead "statepoint.10.h5"; New CStatePoint].
Proof.
  unfold extract_flux_spectrum, StatePoint_open, getitem, get_values_mean.
  destruct (Py.lookup "statepoint.10.h5" fs) as [[sp|]|]; cbn -[nth_error bins];
    [| left; reflexivity ..].
  destruct (get_tally sp "Flux spectrum") as [e|t]; cbn -[nth_error bins];
    [right; reflexivity |].
  destruct (nth_error (filters t) 0) as [f|]; cbn -[nth_error bins];
    [| right; reflexivity].
  destruct (bins f) as [rows|cs]; cbn -[nth_error bins];
    [| right; reflexivity].
  destruct (mean t) as [values|]; right; reflexivity.
Qed.

Lemma generate_plot_ok (energies flux : list R) :
  length energies = length flux ->
  generate_plot energies flux
    = ([New CFigure],
       inr {| Chart.xdata := energies; Chart.ydata := flux;
              Chart.drawstyle := "steps-post";
              Chart.xscale := "log"; Chart.yscale := "log";
              Chart.xlabel := "Energy [eV]";
              Chart.ylabel := "Flux [neutron-cm/source]";
              Chart.grid := Some "both" |}).
Proof.
  intros H. unfold generate_plot, Pyplot.subplots, Pyplot.loglog.
  rewrite H, Nat.eqb_refl. reflexivity.
Qed.

Lemma generate_plot_mismatch (energies flux : list R) :
  length energies <> length flux ->
  generate_plot energies flux
    = ([New CFigure], inl (ValueError "x and y must have same first dimension")).
Proof.
  intros H. unfold generate_plot, Pyplot.subplots, Pyplot.loglog.
  apply Nat.eqb_neq in H. rewrite H. reflexivity.
Qed.

(** X6. [generate_plot] creates one figure and draws on it only when
    the two arrays have the same length: then the figure holds the
    energies and the flux as they were given, as a steps-post line on
    two logarithmic axes, with the two axis labels and the grid on
    both major and minor ticks.  With arrays of different lengths it
    raises a [ValueError] and returns no figure. *)
Theorem generate_plot_equal_lengths :
  forall energies flux : list R,
    (length energies = length flux ->
     exists fig,
       generate_plot energies flux = ([New CFigure], inr fig) /\
       Chart.xdata fig = energies /\ Chart.ydata fig = flux /\
       is_loglog_step_plot fig = true /\
       Chart.xlabel fig = "Energy [eV]" /\
       Chart.ylabel fig = "Flux [neutron-cm/source]" /\
       Chart.grid fig = Some "both") /\
    (length energies <> length flux ->
     exists msg,
       generate_plot energies flux = ([New CFigure], inl (ValueError msg))).
Proof.
  intros energies flux. split; intros H.
  - eexists. split; [now apply generate_plot_ok|]. repeat split.
  - eexists. now apply generate_plot_mismatch.
Qed.

(** X6 at two energies against two flux values, and against one. *)
Lemma generate_plot_equal_lengths_witness :
  (exists fig,
     generate_plot [1%R; 10%R] [3%R; 7%R] = ([New CFigure], inr fig) /\
     Chart.xdata fig = [1%R; 10%R] /\ Chart.ydata fig = [3%R; 7%R] /\
     is_loglog_step_plot fig = true /\
     Chart.xlabel fig = "Energy [eV]" /\
     Chart.ylabel fig = "Flux [neutron-cm/source]" /\
     Chart.grid fig = Some "both") /\
  (exists msg,
     generate_plot [1%R; 10%R] [3%R] = ([New CFigure], inl (ValueError msg))).
Proof.
  split.
  - apply (proj1 (generate_plot_equal_lengths [1%R; 10%R] [3%R; 7%R])).
    reflexivity.
  - apply (proj2 (generate_plot_equal_lengths [1%R; 10%R] [3%R])).
    cbn. discriminate.
Defined.

Lemma plot_after_extract_error (fs : filesystem) (e : exn) :
  outcome (extract_flux_spectrum fs) = inl e ->
  outcome (plot_shell_results fs) = inl e /\
  trace (plot_shell_results fs) = trace (extract_flux_spectrum fs).
Proof.
  intros H. unfold plot_shell_results.
  rewrite outcome_bind, trace_bind, H. split; reflexivity.
Qed.

(** X7. The plotter takes the energies from the first filter of the
    spectrum tally.  When that tally has no filter at all, or lists
    its cell filter first, [extract_flux_spectrum] raises an
    [IndexError], and [plot_shell_results] raises it too and saves no
    plot. *)
Theorem extract_flux_spectrum_needs_interval_filter_first :
  forall (fs : filesystem) (sp : StatePoint) (t : Tally),
    Py.lookup "statepoint.10.h5" fs = Some (StatePointFile sp) ->
    get_tally sp "Flux spectrum" = inr t ->
    (filters t = [] \/ exists cs rest, filters t = CellFilter cs :: rest) ->
    exists msg,
      outcome (extract_flux_spectrum fs) = inl (IndexError msg) /\
      outcome (plot_shell_results fs) = inl (IndexError msg) /\
      saved (trace (plot_shell_results fs)) = [].
Proof.
  intros fs sp t Hfs Ht Hfilters.
  assert (H : exists msg, outcome (extract_flux_spectrum fs) = inl (IndexError msg)).
  { unfold extract_flux_spectrum, StatePoint_open, getitem.
    rewrite Hfs. cbn -[nth_error bins]. rewrite Ht. cbn -[nth_error bins].
    destruct Hfilters as [-> | (cs & rest & ->)]; eexists; reflexivity. }
  destruct H as (msg & H). exists msg.
  destruct (plot_after_extract_error fs _ H) as (Ho & Htr).
  rewrite Htr. repeat split; try assumption.
  apply extract_flux_spectrum_reads.
Qed.

(** X7 at a spectrum tally with the cell filter first. *)
Lemma extract_flux_spectrum_needs_interval_filter_first_witness :
  exists msg,
    outcome (extract_flux_spectrum Samples.fs_cell_first) = inl (IndexError msg) /\
    outcome (plot_shell_results Samples.fs_cell_first) = inl (IndexError msg) /\
    saved (trace (plot_shell_results Samples.fs_cell_first)) = [].
Proof.
  apply (extract_flux_spectrum_needs_interval_filter_first
           Samples.fs_cell_first
           {| tallies := [Samples.cell_first_tally] |}
           Samples.cell_first_tally eq_refl eq_refl).
  right. eexists. eexists. reflexivity.
Defined.

Lemma get_tally_first_of_name (pre post : list Tally) (t : Tally) (n : string) :
  (forall u, In u pre -> tally_name u <> n) ->
  tally_name t = n ->
  get_tally {| tallies := pre ++ t :: post |} n = inr t.
Proof.
  intros Hpre Ht. unfold get_tally. cbn [tallies].
  induction pre as [|u pre IH]; cbn [app find].
  - rewrite Ht, String.eqb_refl. reflexivity.
  - destruct (String.eqb_spec (tally_name u) n) as [E|_].
    + exfalso. apply (Hpre u); [now left | exact E].
    + apply IH. intros v Hv. apply Hpre. now right.
Qed.

(** X9. The plotter looks the spectrum tally up by name and takes
    the first one.  Tallies of other names before it, and any tally
    after it, one of the same name included, change nothing: the run
    on the whole result file is the run on a result file that holds
    that one tally. *)
Theorem plot_shell_results_first_tally_of_name :
  forall (fs fs' : filesystem) (pre post : list Tally) (t : Tally),
    Py.lookup "statepoint.10.h5" fs
      = Some (StatePointFile {| tallies := pre ++ t :: post |}) ->
    Py.lookup "statepoint.10.h5" fs'
      = Some (StatePointFile {| tallies := [t] |}) ->
    (forall u, In u pre -> tally_name u <> "Flux spectrum") ->
    tally_name t = "Flux spectrum" ->
    extract_flux_spectrum fs = extract_flux_spectrum fs' /\
    plot_shell_results fs = plot_shell_results fs'.
Proof.
  intros fs fs' pre post t Hfs Hfs' Hpre Ht.
  assert (H : extract_flux_spectrum fs = extract_flux_spectrum fs').
  { unfold extract_flux_spectrum, StatePoint_open.
    rewrite Hfs, Hfs'. cbn -[nth_error bins get_tally].
    rewrite (get_tally_first_of_name pre post t _ Hpre Ht).
    pose proof (get_tally_first_of_name [] [] t _
                  (fun u (F : In u []) => match F with end) Ht) as Hone.
    cbn [app] in Hone. rewrite Hone. reflexivity. }
  split; [exact H|]. unfold plot_shell_results. now rewrite H.
Qed.

(** X9 at a result file with a tally before the spectrum tally and a
    second spectrum tally after it. *)
Lemma plot_shell_results_first_tally_of_name_witness :
  extract_flux_spectrum Samples.fs_many_tallies
    = extract_flux_spectrum Samples.fs_shell_run /\
  plot_shell_results Samples.fs_many_tallies
    = plot_shell_results Samples.fs_shell_run.
Proof.
  apply (plot_shell_results_first_tally_of_name
           Samples.fs_many_tallies Samples.fs_shell_run
           [Samples.other_tally] [Samples.mu_first_tally] Samples.spectrum_tally
           eq_refl eq_refl).
  - intros u [<- | []]. discriminate.
  - reflexivity.
Defined.

Lemma ravel3_singletons (vs : list R) :
  Numpy.ravel3 (map (fun v => [[v]]) vs) = vs.
Proof.
  unfold Numpy.ravel3. induction vs as [|v vs IH]; [reflexivity|].
  cbn [map concat app]. cbn. f_equal. exact IH.
Qed.

(** X10. For a spectrum tally with one nuclide and one score, the
    flux values come back in the order of the bins: with one stored
    mean per bin, [extract_flux_spectrum] returns exactly that list
    of means, beside the lower edges of the bins of the first
    filter. *)
Theorem extract_flux_spectrum_one_value_per_bin :
  forall (fs : filesystem) (sp : StatePoint) (t : Tally) (f : Filter)
         (rows : list (R * R)) (means : list R),
    Py.lookup "statepoint.10.h5" fs = Some (StatePointFile sp) ->
    get_tally sp "Flux spectrum" = inr t ->
    nth_error (filters t) 0 = Some f ->
    bins f = Rows rows ->
    mean t = Some (map (fun v => [[v]]) means) ->
    outcome (extract_flux_spectrum fs) = inr (map fst rows, means).
Proof.
  intros fs sp t f rows means Hfs Ht Hf Hb Hm.
  rewrite (extract_flux_spectrum_ok fs sp t f rows _ Hfs Ht Hf Hb Hm).
  cbn [outcome snd]. now rewrite ravel3_singletons.
Qed.

(** X10 at the result file of a run with two energy groups. *)
Lemma extract_flux_spectrum_one_value_per_bin_witness :
  outcome (extract_flux_spectrum Samples.fs_shell_run)
    = inr ([1%R; 10%R], [3%R; 7%R]).
Proof.
  apply (extract_flux_spectrum_one_value_per_bin
           Samples.fs_shell_run
           {| tallies := [Samples.spectrum_tally] |}
           Samples.spectrum_tally
           (EnergyFilter [1%R; 10%R; 100%R])
           [(1%R, 10%R); (10%R, 100%R)]
           [3%R; 7%R]
           eq_refl eq_refl eq_refl eq_refl eq_refl).
Defined.

(** X11. A run of [plot_shell_results] is all or nothing.  Either it
    raises, and then it has saved no plot and shown nothing; or it
    completes, and then what it did after reading the file is: one
    figure saved to ["neutron_flux_v_energy.png"], a step plot on two
    logarithmic axes with as many energies as flux values, and then
    shown. *)
Theorem plot_shell_results_all_or_nothing :
  forall fs : filesystem,
    (raises (plot_shell_results fs) = true /\
     saved (trace (plot_shell_results fs)) = [] /\
     ~ In Show (trace (plot_shell_results fs))) \/
    (outcome (plot_shell_results fs) = inr tt /\
     exists fig,
       trace (plot_shell_results fs)
         = [OpenRead "statepoint.10.h5"; New CStatePoint; New CFigure;
            SaveFig "neutron_flux_v_energy.png" fig; Show] /\
       is_loglog_step_plot fig = true /\
       length (Chart.xdata fig) = length (Chart.ydata fig)).
Proof.
  intros fs.
  destruct (outcome (extract_flux_spectrum fs)) as [e|[energies flux]] eqn:Hext.
  - left. destruct (plot_after_extract_error fs e Hext) as (Ho & Htr).
    unfold raises. rewrite Ho, Htr. split; [reflexivity|]. split.
    + apply extract_flux_spectrum_reads.
    + destruct (extract_flux_spectrum_trace fs) as [-> | ->];
        intros F; cbn in F; intuition discriminate.
  - destruct (extract_flux_spectrum_inv fs energies flux Hext)
      as (sp & t & f & rows & values & Hsp & Ht & Hf & Hb & Hm & He & Hfl).
    pose proof (extract_flux_spectrum_ok fs sp t f rows values Hsp Ht Hf Hb Hm) as Hok.
    unfold plot_shell_results. rewrite Hok. subst energies flux.
    destruct (Nat.eq_dec (length (map fst rows)) (length (Numpy.ravel3 values)))
      as [Hlen | Hlen].
    + right. cbn -[generate_plot Numpy.ravel3].
      rewrite (generate_plot_ok _ _ Hlen). cbn -[Numpy.ravel3].
      split; [reflexivity|]. eexists. split; [reflexivity|].
      split; [reflexivity | exact Hlen].
    + left. cbn -[generate_plot Numpy.ravel3].
      rewrite (generate_plot_mismatch _ _ Hlen). cbn -[Numpy.ravel3].
      split; [reflexivity|]. split; [reflexivity|].
      intros F; cbn in F; intuition discriminate.
Qed.
